(** * mmengine/evaluator/metric.py

    A shallow embedding of [BaseMetric], [DumpResults] and [_to_cpu], and
    the properties of the evaluation round that the specification states. *)

From stdpp Require Import base gmap strings list.

Set Warnings "-register-all".
Local Open Scope Z_scope.

(** ** Python values *)

(** Where a tensor or a data element lives. *)
Inductive device : Type :=
| cpu
| cuda (index : nat).

#[global] Instance device_eq_dec : EqDecision device.
Proof. solve_decision. Defined.

(** [torch.Tensor] is external: a device and the numbers it holds. *)
Record Tensor : Type := mkTensor {
  tensor_device : device;
  tensor_data : list Z
}.

(** Modelled from the spec: [mmengine.structures.BaseDataElement] is
    defined elsewhere in mmengine; a structured prediction is kept as a
    device and named fields, and [to] gives "a host-memory copy" of it. *)
Record BaseDataElement : Type := mkDataElement {
  element_device : device;
  element_fields : list (string * list Z)
}.

(** Hashable scalars used as dictionary keys. *)
Inductive key : Type :=
| KStr (s : string)
| KInt (n : Z).

#[global] Instance key_eq_dec : EqDecision key.
Proof. solve_decision. Defined.

(** The values the metric handles.  A float is kept as the decimal that
    writes it, [mantissa * 10 ^ exponent]: the code moves floats around and
    never computes with them. *)
Inductive value : Type :=
| VNone
| VBool (b : bool)
| VInt (n : Z)
| VFloat (mantissa exponent : Z)
| VStr (s : string)
| VTensor (t : Tensor)
| VDataElement (e : BaseDataElement)
| VList (items : list value)
| VTuple (items : list value)
| VDict (items : list (key * value)).

(** ** Dictionaries

    A [dict] keeps insertion order, so it is an association list whose keys
    are pairwise distinct; [setitem] is [d[k] = v]. *)
Module PyDict.

Definition t (V : Type) : Type := list (key * V).

Definition keys {V} (d : t V) : list key := d.*1.

Definition wf {V} (d : t V) : Prop := NoDup (keys d).

Fixpoint setitem {V} (d : t V) (k : key) (v : V) : t V :=
  match d with
  | [] => [(k, v)]
  | (k', v') :: d' =>
      if decide (k' = k) then (k', v) :: d' else (k', v') :: setitem d' k v
  end.

Fixpoint getitem {V} (d : t V) (k : key) : option V :=
  match d with
  | [] => None
  | (k', v') :: d' => if decide (k' = k) then Some v' else getitem d' k
  end.

(** [{kf k: vf v for k, v in d.items()}] *)
Definition comprehension {V W} (kf : key -> key) (vf : V -> W) (d : t V) : t W :=
  fold_left (fun acc kv => setitem acc (kf kv.1) (vf kv.2)) d [].

End PyDict.

(** ** [_to_cpu] *)

(** [Tensor.to('cpu')] *)
Definition Tensor_to (t : Tensor) (d : device) : Tensor :=
  {| tensor_device := d; tensor_data := tensor_data t |}.

(** Modelled from the spec: [BaseDataElement.to('cpu')], a copy in host
    memory with the same fields. *)
Definition BaseDataElement_to (e : BaseDataElement) (d : device) : BaseDataElement :=
  {| element_device := d; element_fields := element_fields e |}.

Fixpoint _to_cpu (data : value) : value :=
  match data with
  | VTensor t => VTensor (Tensor_to t cpu)
  | VDataElement e => VDataElement (BaseDataElement_to e cpu)
  | VList items => VList (map _to_cpu items)
  | VTuple items => VTuple (map _to_cpu items)
  | VDict items =>
      VDict (PyDict.comprehension (fun k => k) _to_cpu items)
  | _ => data
  end.

(** A value as Python can hold it: the keys of every dictionary in it are
    pairwise distinct. *)
Fixpoint well_formed (data : value) : bool :=
  match data with
  | VList items | VTuple items => forallb well_formed items
  | VDict items =>
      bool_decide (PyDict.wf items) && forallb (fun kv => well_formed kv.2) items
  | _ => true
  end.

(** [relocated data data']: [data'] has the shape, the keys and the order of
    [data], its tensors and data elements are those of [data] brought to
    host memory, and its other leaves are those of [data]. *)
Inductive relocated : value -> value -> Prop :=
| relocated_none : relocated VNone VNone
| relocated_bool b : relocated (VBool b) (VBool b)
| relocated_int n : relocated (VInt n) (VInt n)
| relocated_float m e : relocated (VFloat m e) (VFloat m e)
| relocated_str s : relocated (VStr s) (VStr s)
| relocated_tensor t :
    relocated (VTensor t) (VTensor (mkTensor cpu (tensor_data t)))
| relocated_element e :
    relocated (VDataElement e) (VDataElement (mkDataElement cpu (element_fields e)))
| relocated_list items items' :
    Forall2 relocated items items' -> relocated (VList items) (VList items')
| relocated_tuple items items' :
    Forall2 relocated items items' -> relocated (VTuple items) (VTuple items')
| relocated_dict items items' :
    Forall2 (fun kv kv' => kv.1 = kv'.1 /\ relocated kv.2 kv'.2) items items' ->
    relocated (VDict items) (VDict items').

(** ** Effects

    The code logs, writes files, mutates [self] and raises.  A computation
    takes a state and gives an outcome and the state it leaves; a [Raise]
    keeps the state reached so far, as an exception leaves every mutation
    done before it in place. *)

Inductive exn : Type :=
| ValueError (msg : string)
| TypeError (msg : string)
| IndexError (msg : string)
| NotImplementedError (msg : string)
| RuntimeError (msg : string).

Inductive outcome (A : Type) : Type :=
| Return (a : A)
| Raise (e : exn).
Arguments Return {A} a.
Arguments Raise {A} e.

Definition M (S A : Type) : Type := S -> outcome A * S.

#[global] Instance M_ret {S} : MRet (M S) :=
  fun A a s => (Return a, s).

#[global] Instance M_bind {S} : MBind (M S) :=
  fun A B k c s =>
    match c s with
    | (Return a, s') => k a s'
    | (Raise e, s') => (Raise e, s')
    end.

Definition raise {S A} (e : exn) : M S A := fun s => (Raise e, s).

(** ** The process around a metric: log and files *)

Definition WARNING : Z := 30.
Definition INFO : Z := 20.

Record log_record : Type := mkLog {
  log_level : Z;
  log_msg : string
}.

Record world : Type := mkWorld {
  logs : list log_record;
  files : gmap string value
}.

(** Modelled from the spec: [mmengine.logging.print_log] is defined
    elsewhere in mmengine; it is "a logging sink", here the list of records
    written so far. *)
Definition print_log (msg : string) (level : Z) : M world () :=
  fun w => (Return (), {| logs := logs w ++ [mkLog level msg]; files := files w |}).

(** Modelled from the spec: [mmengine.fileio.dump] is defined elsewhere in
    mmengine; it is the "serialize(value, path) file-dump primitive", here a
    store from paths to the value a plain deserializer reads back. *)
Definition dump (obj : value) (file : string) : M world () :=
  fun w => (Return (), {| logs := logs w; files := <[file := obj]> (files w) |}).

(** The interface of [mmengine.dist] that [evaluate] calls.  The module is
    defined elsewhere in mmengine, so a process is given by what the three
    calls do in it.  [collect_results] reads the list it is handed and
    gives a new one; [broadcast_object_list] overwrites its argument in
    place and is given as the list it leaves.  Neither touches the metric
    otherwise. *)
Record Dist : Type := mkDist {
  collect_results : list value -> Z -> string -> M world value;
  is_main_process : bool;
  broadcast_object_list : list value -> M world (list value)
}.

(** ** [BaseMetric] *)

Record metric_class : Type := mkClass {
  __name__ : string;
  default_prefix : option string
}.

Record BaseMetric : Type := mkMetric {
  __class__ : metric_class;
  _dataset_meta : option (PyDict.t value);
  collect_device : string;
  results : list value;
  prefix : option string
}.

(** Truth value of an [Optional[str]]: [None] and the empty string are
    false. *)
Definition truthy (s : option string) : bool :=
  match s with
  | Some s => negb (String.eqb s "")
  | None => false
  end.

(** [a or b] *)
Definition py_or (a b : option string) : option string :=
  if truthy a then a else b.

Definition BaseMetric__init__ (cls : metric_class)
    (collect_device' : string) (prefix' : option string) : M world BaseMetric :=
  let self := {| __class__ := cls;
                 _dataset_meta := None;
                 collect_device := collect_device';
                 results := [];
                 prefix := py_or prefix' (default_prefix cls) |} in
  match self.(prefix) with
  | None =>
      print_log ("The prefix is not set in metric class " +:+ __name__ cls +:+ ".")
        WARNING
  | Some _ => mret ()
  end;;
  mret self.

(** The property [dataset_meta] and its setter. *)
Definition dataset_meta (self : BaseMetric) : option (PyDict.t value) :=
  self.(_dataset_meta).

Definition set_dataset_meta (meta : PyDict.t value) (self : BaseMetric) : BaseMetric :=
  {| __class__ := self.(__class__);
     _dataset_meta := Some meta;
     collect_device := self.(collect_device);
     results := self.(results);
     prefix := self.(prefix) |}.

(** [self.results.clear()] *)
Definition clear_results (self : BaseMetric) : BaseMetric :=
  {| __class__ := self.(__class__);
     _dataset_meta := self.(_dataset_meta);
     collect_device := self.(collect_device);
     results := [];
     prefix := self.(prefix) |}.

(** [l[:stop]], with Python's reading of a negative [stop]. *)
Definition slice_to {A} (l : list A) (stop : Z) : list A :=
  if bool_decide (0 <= stop) then take (Z.to_nat stop) l
  else take (Z.to_nat (Z.of_nat (length l) + stop)) l.

(** ['/'.join((prefix, k))]: [str.join] refuses an item that is not a
    string. *)
Definition join_prefix (p : option string) (k : key) : outcome key :=
  match p, k with
  | Some p, KStr s => Return (KStr (String.concat "/" [p; s]))
  | None, _ => Raise (TypeError "sequence item 0: expected str instance, NoneType found")
  | Some _, KInt _ => Raise (TypeError "sequence item 1: expected str instance, int found")
  end.

(** [{'/'.join((prefix, k)): v for k, v in _metrics.items()}], items taken
    from left to right into the new dictionary [acc]. *)
Fixpoint add_prefix (p : option string) (items acc : PyDict.t value)
    : outcome (PyDict.t value) :=
  match items with
  | [] => Return acc
  | (k, v) :: rest =>
      match join_prefix p k with
      | Return k' => add_prefix p rest (PyDict.setitem acc k' v)
      | Raise e => Raise e
      end
  end.

(** An outcome computed without effect, as a step of a computation. *)
Definition of_outcome {S A} (r : outcome A) : M S A := fun s => (r, s).

(** A call of the world run from a method of [self]. *)
Definition in_world {A} (c : M world A) : M (BaseMetric * world) A :=
  fun s => let '(r, w) := c s.2 in (r, (s.1, w)).

Definition get_self : M (BaseMetric * world) BaseMetric :=
  fun s => (Return s.1, s).

Definition update_self (f : BaseMetric -> BaseMetric) : M (BaseMetric * world) () :=
  fun s => (Return (), (f s.1, s.2)).

(** The text of the warning of [evaluate]. *)
Definition empty_results_message (self : BaseMetric) : string :=
  __name__ self.(__class__) +:+
  " got empty `self.results`. Please ensure that the processed results are properly added into `self.results` in `process` method.".

Section Evaluate.

(** The process the metric runs in, and the variant's [compute_metrics]:
    it reads [self], may log and write, and may raise. *)
Variable D : Dist.
Variable compute_metrics : BaseMetric -> value -> M world (PyDict.t value).

Definition evaluate (size : Z) : M (BaseMetric * world) value :=
  self ← get_self;
  (if bool_decide (length self.(results) = 0%nat) then
     in_world (print_log (empty_results_message self) WARNING)
   else mret ());;
  results' ← in_world (collect_results D self.(results) size self.(collect_device));
  metrics ←
    (if is_main_process D then
       let results' := _to_cpu results' in
       _metrics ← in_world (compute_metrics self results');
       _metrics ←
         (if truthy self.(prefix) then
            of_outcome (add_prefix self.(prefix) _metrics [])
          else mret _metrics);
       mret [VDict _metrics]
     else mret [VNone]);
  metrics ← in_world (broadcast_object_list D metrics);
  update_self clear_results;;
  match metrics with
  | m :: _ => mret m
  | [] => raise (IndexError "list index out of range")
  end.

End Evaluate.

(** ** [DumpResults] *)

(** [s.endswith(suffix)]: [s] is [suffix], or what follows its first
    character ends with [suffix]. *)
Fixpoint endswith (s suffix : string) : bool :=
  String.eqb s suffix ||
  match s with
  | EmptyString => false
  | String _ s' => endswith s' suffix
  end.

(** [s.endswith((suffix1, suffix2, ...))] *)
Definition endswith_any (s : string) (suffixes : list string) : bool :=
  existsb (endswith s) suffixes.

Record DumpResults : Type := mkDumpResults {
  base : BaseMetric;
  out_file_path : string
}.

(** [DumpResults] leaves [default_prefix] as [BaseMetric] has it. *)
Definition DumpResults_class : metric_class :=
  {| __name__ := "DumpResults"; default_prefix := None |}.

Definition DumpResults__init__ (out_file_path' : string) (collect_device' : string)
    : M world DumpResults :=
  self ← BaseMetric__init__ DumpResults_class collect_device' None;
  (if negb (endswith_any out_file_path' [".pkl"; ".pickle"]) then
     raise (ValueError "The output file must be a pkl file.")
   else mret ());;
  mret {| base := self; out_file_path := out_file_path' |}.

(** [self.results.extend(items)] *)
Definition extend_results (items : list value) (self : DumpResults) : DumpResults :=
  {| base := {| __class__ := self.(base).(__class__);
                _dataset_meta := self.(base).(_dataset_meta);
                collect_device := self.(base).(collect_device);
                results := self.(base).(results) ++ items;
                prefix := self.(base).(prefix) |};
     out_file_path := self.(out_file_path) |}.

(** [process], for a batch of predictions that is a list. *)
Definition DumpResults_process (data_batch : value) (predictions : list value)
    : M DumpResults () :=
  fun self =>
    match _to_cpu (VList predictions) with
    | VList items => (Return (), extend_results items self)
    | _ => (Raise (TypeError "object is not iterable"), self)
    end.

Definition DumpResults_compute_metrics (self : DumpResults) (results' : value)
    : M world (PyDict.t value) :=
  dump results' self.(out_file_path);;
  print_log ("Results has been saved to " +:+ self.(out_file_path) +:+ ".") INFO;;
  mret [].

(** [evaluate] as [DumpResults] inherits it. *)
Definition DumpResults_evaluate (D : Dist) (size : Z) : M (DumpResults * world) value :=
  fun s =>
    let '(r, (b, w)) :=
      evaluate D (fun _ => DumpResults_compute_metrics s.1) size (s.1.(base), s.2) in
    (r, ({| base := b; out_file_path := s.1.(out_file_path) |}, w)).

(** ** Processes *)

(** The two device names the docstring of [BaseMetric] allows. *)
Definition valid_device (d : string) : bool :=
  String.eqb d "cpu" || String.eqb d "gpu".

(** What the specification says of a single-worker setup: the process is
    the designated one, collection gives the accumulator cut to [size], and
    the broadcast leaves the list as the process filled it. *)
Record SingleWorker (D : Dist) : Prop := {
  sw_is_main : is_main_process D = true;
  sw_collect : forall r size dev w,
    valid_device dev = true ->
    collect_results D r size dev w = (Return (VList (slice_to r size)), w);
  sw_broadcast : forall m w, broadcast_object_list D m w = (Return m, w)
}.

(** The broadcast overwrites the slots of the list it is given: it leaves
    as many as it found. *)
Definition broadcast_in_place (D : Dist) : Prop :=
  forall m w m' w',
    broadcast_object_list D m w = (Return m', w') -> length m' = length m.

(** Modelled from the spec: [mmengine.dist] for a run of one process; a
    device name outside the documented two is refused. *)
Definition single_process : Dist :=
  {| collect_results r size dev :=
       if valid_device dev then mret (VList (slice_to r size))
       else raise (NotImplementedError "device must be 'cpu' or 'gpu'");
     is_main_process := true;
     broadcast_object_list m := mret m |}.

(** Modelled from the spec: "gathering every worker's accumulated results
    into one ordered sequence on the designated worker", "truncated to the
    given size". *)
Definition gather (parts : list (list value)) (size : Z) : list value :=
  slice_to (concat parts) size.

(** Modelled from the spec: [mmengine.dist] as the worker of rank [rank]
    sees it in a round where the workers hold [parts] and the designated
    worker (rank 0) broadcasts: the gathered sequence reaches the designated
    worker only, and the broadcast overwrites every slot of the list with
    the designated worker's value, [sent] (the designated worker keeps its
    own list). *)
Definition worker (rank : nat) (parts : list (list value)) (sent : option value) : Dist :=
  {| collect_results _ size dev :=
       if valid_device dev then
         mret (if bool_decide (rank = 0%nat) then VList (gather parts size) else VNone)
       else raise (NotImplementedError "device must be 'cpu' or 'gpu'");
     is_main_process := bool_decide (rank = 0%nat);
     broadcast_object_list m :=
       mret (match sent with Some v => (fun _ => v) <$> m | None => m end) |}.

#[global] Instance Tensor_eq_dec : EqDecision Tensor.
Proof. solve_decision. Defined.

#[global] Instance BaseDataElement_eq_dec : EqDecision BaseDataElement.
Proof. solve_decision. Defined.

(** Equality of two lists, item by item. *)
Fixpoint list_eqb {A} (eqb : A -> A -> bool) (l l' : list A) : bool :=
  match l, l' with
  | [], [] => true
  | x :: l, y :: l' => eqb x y && list_eqb eqb l l'
  | _, _ => false
  end.

(** Equality of two values. *)
Fixpoint value_eqb (a b : value) : bool :=
  match a, b with
  | VNone, VNone => true
  | VBool x, VBool y => bool_decide (x = y)
  | VInt x, VInt y => bool_decide (x = y)
  | VFloat m e, VFloat m' e' => bool_decide (m = m') && bool_decide (e = e')
  | VStr x, VStr y => bool_decide (x = y)
  | VTensor x, VTensor y => bool_decide (x = y)
  | VDataElement x, VDataElement y => bool_decide (x = y)
  | VList l, VList l' => list_eqb value_eqb l l'
  | VTuple l, VTuple l' => list_eqb value_eqb l l'
  | VDict d, VDict d' =>
      list_eqb (fun kv kv' => bool_decide (kv.1 = kv'.1) && value_eqb kv.2 kv'.2) d d'
  | _, _ => false
  end.

(** Modelled from the spec: [mmengine.dist] as the designated worker sees
    it in a round.  The round is fixed by what collection delivers to the
    designated worker, [gathered], and by the list its broadcast carries,
    [wire].  On the designated worker [broadcast_object_list] is the send:
    the list it is handed is the one the broadcast carries, so in the round
    of [wire] the call goes through with that list only, and leaves it as
    it is. *)
Definition designated (gathered : value) (wire : list value) : Dist :=
  {| collect_results _ size dev :=
       if valid_device dev then mret gathered
       else raise (NotImplementedError "device must be 'cpu' or 'gpu'");
     is_main_process := true;
     broadcast_object_list m :=
       if list_eqb value_eqb m wire then mret m
       else raise (RuntimeError "the list handed to the broadcast is not the one it carries") |}.

(** Modelled from the spec: [mmengine.dist] as any other worker sees it in
    the round of [wire]: collection gives it nothing, and the broadcast
    "overwrites that list in place" with what the designated worker sent,
    slot by slot. *)
Definition follower (wire : list value) : Dist :=
  {| collect_results _ size dev :=
       if valid_device dev then mret VNone
       else raise (NotImplementedError "device must be 'cpu' or 'gpu'");
     is_main_process := false;
     broadcast_object_list m :=
       if bool_decide (length m = length wire) then mret wire
       else raise (RuntimeError "the lists of the broadcast differ in length") |}.

Section Round.

Variable compute_metrics : BaseMetric -> value -> M world (PyDict.t value).

(** Modelled from the spec: one evaluation round of workers in lockstep,
    the first of them designated.  The others block in the broadcast until
    the designated worker has sent, so a round that the designated worker
    does not complete, because it raises or because it hands the broadcast
    another list than [wire], has no result ([None]). *)
Definition round (gathered : value) (wire : list value)
    (workers : list (BaseMetric * world)) (size : Z)
    : option (list (outcome value * (BaseMetric * world))) :=
  match workers with
  | [] => Some []
  | main :: others =>
      match evaluate (designated gathered wire) compute_metrics size main with
      | (Return v, s) =>
          Some ((Return v, s) ::
                (evaluate (follower wire) compute_metrics size <$> others))
      | (Raise _, _) => None
      end
  end.

End Round.

(** * Definitions used by the statements *)

(** ** Induction on values *)

(** Induction on a value, with the property at hand for every component of a
    container. *)
Definition value_ind' (P : value -> Prop)
    (HNone : P VNone) (HBool : forall b, P (VBool b)) (HInt : forall n, P (VInt n))
    (HFloat : forall m e, P (VFloat m e))
    (HStr : forall s, P (VStr s)) (HTensor : forall t, P (VTensor t))
    (HElement : forall e, P (VDataElement e))
    (HList : forall items, Forall P items -> P (VList items))
    (HTuple : forall items, Forall P items -> P (VTuple items))
    (HDict : forall items, Forall (fun kv => P kv.2) items -> P (VDict items))
    : forall data, P data :=
  fix go (data : value) : P data :=
    match data with
    | VNone => HNone
    | VBool b => HBool b
    | VInt n => HInt n
    | VFloat m e => HFloat m e
    | VStr s => HStr s
    | VTensor t => HTensor t
    | VDataElement e => HElement e
    | VList items =>
        HList items
          ((fix all (l : list value) : Forall P l :=
              match l with
              | [] => Forall_nil_2 P
              | x :: l' => Forall_cons_2 P x l' (go x) (all l')
              end) items)
    | VTuple items =>
        HTuple items
          ((fix all (l : list value) : Forall P l :=
              match l with
              | [] => Forall_nil_2 P
              | x :: l' => Forall_cons_2 P x l' (go x) (all l')
              end) items)
    | VDict items =>
        HDict items
          ((fix all (l : list (key * value)) : Forall (fun kv => P kv.2) l :=
              match l with
              | [] => Forall_nil_2 _
              | kv :: l' => Forall_cons_2 (fun kv => P kv.2) kv l' (go kv.2) (all l')
              end) items)
    end.

(** ** What [evaluate] computes *)

(** The world after the first statement of [evaluate]: the warning is in the
    log when the accumulator is empty. *)
Definition after_warning (self : BaseMetric) (w : world) : world :=
  if bool_decide (length self.(results) = 0%nat) then
    {| logs := logs w ++ [mkLog WARNING (empty_results_message self)];
       files := files w |}
  else w.

(** The main-process branch of [evaluate]: relocation, [compute_metrics],
    prefix. *)
Definition reduce (cm : BaseMetric -> value -> M world (PyDict.t value))
    (self : BaseMetric) (collected : value) (w : world)
    : outcome (list value) * world :=
  match cm self (_to_cpu collected) w with
  | (Return d, w') =>
      match (if truthy self.(prefix) then add_prefix self.(prefix) d [] else Return d) with
      | Return d' => (Return [VDict d'], w')
      | Raise e => (Raise e, w')
      end
  | (Raise e, w') => (Raise e, w')
  end.

Definition is_str (k : key) : bool :=
  match k with KStr _ => true | KInt _ => false end.

(** [prefix + "/" + k] for a key that is a string. *)
Definition prefix_key (p : string) (k : key) : key :=
  match k with
  | KStr s => KStr (p +:+ "/" +:+ s)
  | KInt n => KInt n
  end.

Definition rename_keys (p : string) (d : PyDict.t value) : PyDict.t value :=
  (fun kv => (prefix_key p kv.1, kv.2)) <$> d.

(** The mapping [evaluate] reports for the mapping [d] of
    [compute_metrics]: renamed under a prefix that is a non-empty string,
    and [d] itself under [None] or the empty string. *)
Definition reported (prefix : option string) (d : PyDict.t value) : PyDict.t value :=
  match prefix with
  | Some p => if String.eqb p "" then d else rename_keys p d
  | None => d
  end.

(** [self.results = R], as processing leaves it. *)
Definition with_results (R : list value) (self : BaseMetric) : BaseMetric :=
  {| __class__ := self.(__class__);
     _dataset_meta := self.(_dataset_meta);
     collect_device := self.(collect_device);
     results := R;
     prefix := self.(prefix) |}.

(** [evaluate(size)] of one worker in the words of the specification:
    [compute_metrics(R[:size])] with every key under [prefix + "/"] when the
    prefix is set, and with the keys unchanged when it is not. *)
Definition evaluate_stated (cm : BaseMetric -> value -> M world (PyDict.t value))
    (self : BaseMetric) (size : Z) (w : world) : outcome value :=
  match cm self (VList (slice_to self.(results) size)) (after_warning self w) with
  | (Return d, _) =>
      Return (VDict (match self.(prefix) with
                     | Some p => rename_keys p d
                     | None => d
                     end))
  | (Raise e, _) => Raise e
  end.

(** The record the constructor logs when no prefix is set. *)
Definition prefix_warning (cls : metric_class) : log_record :=
  mkLog WARNING ("The prefix is not set in metric class " +:+ __name__ cls +:+ ".").

(** A metric as construction leaves it. *)
Definition constructed (cls : metric_class) (dev : string) (prefix' : option string)
    : BaseMetric :=
  {| __class__ := cls; _dataset_meta := None; collect_device := dev;
     results := []; prefix := py_or prefix' (default_prefix cls) |}.

(** The path ends in one of the two recognized extensions. *)
Definition recognized_extension (path : string) : Prop :=
  (exists p, path = p +:+ ".pkl") \/ (exists p, path = p +:+ ".pickle").

(** ** Inputs of the examples *)

(** The value of shape [{"a": [T1, T2], "b": (T3,)}] of the specification,
    with an integer leaf beside [T3]. *)
Definition nested_example : value :=
  VDict [(KStr "a", VList [VTensor (mkTensor (cuda 0) [1; 2]);
                           VTensor (mkTensor cpu [3])]);
         (KStr "b", VTuple [VTensor (mkTensor (cuda 1) []); VInt 7])].

Definition empty_world : world := {| logs := []; files := ∅ |}.

Definition Accuracy : metric_class :=
  {| __name__ := "Accuracy"; default_prefix := Some "acc" |}.

(** A variant whose static default is the empty string. *)
Definition Plain : metric_class :=
  {| __name__ := "Plain"; default_prefix := Some "" |}.

(** A variant that leaves [default_prefix] unset. *)
Definition Bare : metric_class :=
  {| __name__ := "Bare"; default_prefix := None |}.

(** A [compute_metrics] that reports the first collected result. *)
Definition first_result (self : BaseMetric) (results' : value)
    : M world (PyDict.t value) :=
  mret [(KStr "first", match results' with VList (x :: _) => x | _ => VNone end)].

(** A [compute_metrics] that raises. *)
Definition failing (self : BaseMetric) (results' : value)
    : M world (PyDict.t value) :=
  raise (RuntimeError "no metric can be computed").

(** A [compute_metrics] whose mapping has a key that is not a string. *)
Definition int_keyed (self : BaseMetric) (results' : value)
    : M world (PyDict.t value) :=
  mret [(KInt 1, VInt 0)].

Definition gpu_metric : BaseMetric :=
  {| __class__ := Accuracy; _dataset_meta := None; collect_device := "cpu";
     results := [VTensor (mkTensor (cuda 0) [1; 2]); VInt 3];
     prefix := Some "acc" |}.

Definition plain_metric : BaseMetric :=
  {| __class__ := Plain; _dataset_meta := None; collect_device := "cpu";
     results := [VInt 1];
     prefix := Some "" |}.

Definition bare_metric : BaseMetric :=
  {| __class__ := Bare; _dataset_meta := None; collect_device := "cpu";
     results := [];
     prefix := None |}.

(** Three workers; the second one holds nothing and warns. *)
Definition three_workers : list (BaseMetric * world) :=
  [(gpu_metric, empty_world);
   (with_results [] gpu_metric, empty_world);
   (with_results [VInt 4] gpu_metric, empty_world)].

(** What collection delivers to the first of [three_workers] for [size] 3,
    and the mapping [first_result] gives for it under the prefix. *)
Definition three_gathered : value :=
  VList (gather ((fun s => s.1.(results)) <$> three_workers) 3).

Definition three_mapping : value :=
  VDict [(KStr "acc/first", VTensor (mkTensor cpu [1; 2]))].

(** The example of the specification: two workers, one prediction each,
    dumped to [out.pkl]. *)
Definition prediction (id score_mantissa : Z) : value :=
  VDict [(KStr "id", VInt id); (KStr "score", VFloat score_mantissa (-1))].

(** A [DumpResults] worker after construction and one processed batch. *)
Definition dump_worker (predictions : list value) : option (DumpResults * world) :=
  match DumpResults__init__ "out.pkl" "cpu" empty_world with
  | (Return self, w) =>
      match DumpResults_process VNone predictions self with
      | (Return _, self') => Some (self', w)
      | (Raise _, _) => None
      end
  | (Raise _, _) => None
  end.

Definition dump_round : option (list (outcome value) * option value) :=
  match dump_worker [prediction 1 9], dump_worker [prediction 2 1] with
  | Some (d1, w1), Some (d2, w2) =>
      match round (fun _ => DumpResults_compute_metrics d1)
                  (VList (gather [d1.(base).(results); d2.(base).(results)] 2))
                  [VDict []]
                  [(d1.(base), w1); (d2.(base), w2)] 2 with
      | Some ((r, (_, w)) :: outs) => Some (r :: outs.*1, files w !! "out.pkl")
      | _ => None
      end
  | _, _ => None
  end.

(** ** Further definitions *)

(** Every tensor and data element of a value is in host memory. *)
Fixpoint on_cpu (data : value) : bool :=
  match data with
  | VTensor t => bool_decide (tensor_device t = cpu)
  | VDataElement e => bool_decide (element_device e = cpu)
  | VList items | VTuple items => forallb on_cpu items
  | VDict items => forallb (fun kv => on_cpu kv.2) items
  | _ => true
  end.

(** [process] called once for each batch, in order; a batch is the pair of
    [data_batch] and [predictions]. *)
Fixpoint process_batches (batches : list (value * list value)) : M DumpResults () :=
  match batches with
  | [] => mret ()
  | (data_batch, predictions) :: rest =>
      DumpResults_process data_batch predictions;;
      process_batches rest
  end.

(** A worker that is not the designated one, for the examples. *)
Definition second_worker : Dist :=
  worker 1 [[VInt 1]; [VInt 2]] (Some (VDict [(KStr "acc/first", VInt 1)])).

(** * Properties *)

(** ** Dictionaries *)

Section PyDictFacts.

Context {V : Type}.
Implicit Types (d : PyDict.t V) (k : key) (v : V).

Lemma setitem_fresh d k v :
  k ∉ PyDict.keys d -> PyDict.setitem d k v = d ++ [(k, v)].
Proof.
  unfold PyDict.keys. induction d as [|[k' v'] d IH]; intros Hk; simpl in *.
  - reflexivity.
  - apply not_elem_of_cons in Hk as [Hne Hk].
    destruct (decide (k' = k)) as [->|_]; [done|].
    by rewrite IH.
Qed.

Lemma getitem_setitem d k v : PyDict.getitem (PyDict.setitem d k v) k = Some v.
Proof.
  induction d as [|[k' v'] d IH]; simpl.
  - by rewrite decide_True.
  - destruct (decide (k' = k)) as [->|Hne]; simpl.
    + by rewrite decide_True.
    + by rewrite decide_False.
Qed.

Lemma keys_app d1 d2 : PyDict.keys (d1 ++ d2) = PyDict.keys d1 ++ PyDict.keys d2.
Proof. unfold PyDict.keys. apply fmap_app. Qed.

(** One step of filling a dictionary: the next key is fresh, and the keys
    stay distinct once it is in. *)
Lemma keys_snoc_fresh d k v (ks : list key) :
  NoDup (PyDict.keys d ++ k :: ks) ->
  (k ∉ PyDict.keys d) /\ NoDup (PyDict.keys (d ++ [(k, v)]) ++ ks).
Proof.
  intros Hnd. split.
  - apply NoDup_app in Hnd as (_ & Hdisj & _). intros Hin. eapply Hdisj; [done|left].
  - rewrite keys_app. simpl. by rewrite <- app_assoc.
Qed.

(** Filling a dictionary from items whose new keys are fresh and pairwise
    distinct appends them in their order. *)
Lemma fold_setitem_fresh {W} (kf : key -> key) (vf : W -> V)
    (items : PyDict.t W) d :
  NoDup (PyDict.keys d ++ (kf <$> PyDict.keys items)) ->
  fold_left (fun acc kv => PyDict.setitem acc (kf kv.1) (vf kv.2)) items d
  = d ++ ((fun kv => (kf kv.1, vf kv.2)) <$> items).
Proof.
  revert d. induction items as [|[k w] items IH]; intros d Hnd; simpl.
  - by rewrite app_nil_r.
  - simpl in Hnd. apply (keys_snoc_fresh _ _ (vf w)) in Hnd as [Hfresh Hnd].
    rewrite setitem_fresh, IH by done.
    by rewrite <- app_assoc.
Qed.

Lemma comprehension_wf {W} (kf : key -> key) (vf : W -> V) (items : PyDict.t W) :
  NoDup (kf <$> PyDict.keys items) ->
  PyDict.comprehension kf vf items = (fun kv => (kf kv.1, vf kv.2)) <$> items.
Proof. intros Hnd. unfold PyDict.comprehension. by rewrite fold_setitem_fresh. Qed.

End PyDictFacts.

(** ** Values *)

Lemma _to_cpu_dict items :
  PyDict.wf items ->
  _to_cpu (VDict items) = VDict ((fun kv => (kv.1, _to_cpu kv.2)) <$> items).
Proof.
  intros Hwf.
  change (_to_cpu (VDict items))
    with (VDict (PyDict.comprehension (fun k => k) _to_cpu items)).
  f_equal. apply (comprehension_wf (fun k => k) _to_cpu).
  by rewrite list_fmap_id.
Qed.

Lemma forallb_true_Forall {A} (f : A -> bool) (l : list A) :
  forallb f l = true <-> Forall (fun x => f x = true) l.
Proof.
  induction l as [|x l IH]; simpl.
  - split; [constructor|done].
  - rewrite andb_true_iff, Forall_cons, IH. done.
Qed.

Lemma _to_cpu_relocated data :
  well_formed data = true -> relocated data (_to_cpu data).
Proof.
  induction data as [| | | | | | |items IH|items IH|items IH] using value_ind';
    intros Hwf; try by constructor.
  - simpl in Hwf. apply forallb_true_Forall in Hwf.
    simpl. constructor.
    induction IH as [|x l Hx _ IHl]; simpl; constructor.
    + apply Hx. by apply Forall_cons in Hwf as [Hwf _].
    + apply IHl. by apply Forall_cons in Hwf as [_ Hwf].
  - simpl in Hwf. apply forallb_true_Forall in Hwf.
    simpl. constructor.
    induction IH as [|x l Hx _ IHl]; simpl; constructor.
    + apply Hx. by apply Forall_cons in Hwf as [Hwf _].
    + apply IHl. by apply Forall_cons in Hwf as [_ Hwf].
  - simpl in Hwf. apply andb_true_iff in Hwf as [Hnd Hwf].
    apply bool_decide_eq_true in Hnd. rewrite _to_cpu_dict by done.
    constructor. clear Hnd. apply forallb_true_Forall in Hwf.
    induction IH as [|[k v] l Hx _ IHl]; simpl; constructor.
    + split; [done|]. apply Hx. by apply Forall_cons in Hwf as [Hwf _].
    + apply IHl. by apply Forall_cons in Hwf as [_ Hwf].
Qed.

(** C4: [_to_cpu] keeps the structure of a value.  A tensor or a data
    element comes back as its copy in host memory; a list, a tuple or a
    dictionary comes back as a list, a tuple or a dictionary of the
    relocated components, in the same order and under the same keys; any
    other value comes back as it is.  [relocated] says the same at every
    depth. *)
Theorem _to_cpu_structure_preserving (data : value) :
  well_formed data = true ->
  relocated data (_to_cpu data) /\
  match data with
  | VTensor t => _to_cpu data = VTensor (mkTensor cpu (tensor_data t))
  | VDataElement e => _to_cpu data = VDataElement (mkDataElement cpu (element_fields e))
  | VList items => _to_cpu data = VList (_to_cpu <$> items)
  | VTuple items => _to_cpu data = VTuple (_to_cpu <$> items)
  | VDict items => _to_cpu data = VDict ((fun kv => (kv.1, _to_cpu kv.2)) <$> items)
  | _ => _to_cpu data = data
  end.
Proof.
  intros Hwf. split; [by apply _to_cpu_relocated|].
  destruct data; try reflexivity.
  apply _to_cpu_dict. simpl in Hwf.
  apply andb_true_iff in Hwf as [Hnd _]. by apply bool_decide_eq_true in Hnd.
Qed.

Lemma _to_cpu_structure_preserving_witness :
  well_formed nested_example = true /\
  (relocated nested_example (_to_cpu nested_example) /\
   _to_cpu nested_example =
     VDict ((fun kv => (kv.1, _to_cpu kv.2)) <$>
            [(KStr "a", VList [VTensor (mkTensor (cuda 0) [1; 2]);
                               VTensor (mkTensor cpu [3])]);
             (KStr "b", VTuple [VTensor (mkTensor (cuda 1) []); VInt 7])])).
Proof.
  split; [vm_compute; reflexivity|].
  apply (_to_cpu_structure_preserving nested_example). vm_compute; reflexivity.
Defined.

Example _to_cpu_nested_example :
  _to_cpu nested_example =
  VDict [(KStr "a", VList [VTensor (mkTensor cpu [1; 2]); VTensor (mkTensor cpu [3])]);
         (KStr "b", VTuple [VTensor (mkTensor cpu []); VInt 7])].
Proof. reflexivity. Qed.

(** ** Running [evaluate] *)

(** [evaluate], step by step. *)
Lemma evaluate_run D cm size self w :
  evaluate D cm size (self, w) =
  match collect_results D self.(results) size self.(collect_device)
          (after_warning self w) with
  | (Raise e, w2) => (Raise e, (self, w2))
  | (Return collected, w2) =>
      match (if is_main_process D then reduce cm self collected w2
             else (Return [VNone], w2)) with
      | (Raise e, w3) => (Raise e, (self, w3))
      | (Return metrics, w3) =>
          match broadcast_object_list D metrics w3 with
          | (Raise e, w4) => (Raise e, (self, w4))
          | (Return [], w4) =>
              (Raise (IndexError "list index out of range"), (clear_results self, w4))
          | (Return (m :: _), w4) => (Return m, (clear_results self, w4))
          end
      end
  end.
Proof.
  unfold evaluate, after_warning, reduce, mbind, M_bind, mret, M_ret, get_self,
    in_world, update_self, of_outcome, raise, print_log; simpl.
  destruct (bool_decide (length (results self) = 0%nat)); simpl;
    (destruct (collect_results D _ _ _ _) as [[collected|e] w2]; simpl; [|done]);
    (destruct (is_main_process D); simpl;
     [ destruct (cm self (_to_cpu collected) w2) as [[d|e] w3]; simpl; [|done];
       destruct (truthy (prefix self)); simpl;
       [ destruct (add_prefix (prefix self) d []) as [d'|e]; simpl; [|done] |]
     | ]);
    (destruct (broadcast_object_list D _ _) as [[[|m ms]|e] w4]; done).
Qed.

(** Every way a run can go, each closed from its equation. *)
Ltac run_cases := repeat case_match; by simplify_eq.

Lemma reduce_singleton cm self collected w metrics w' :
  reduce cm self collected w = (Return metrics, w') -> length metrics = 1%nat.
Proof.
  unfold reduce. intros H. run_cases.
Qed.

(** C2: when [evaluate(size)] returns, the accumulator is empty, whatever
    was processed before, whatever the process and [compute_metrics] are,
    and whether or not the warning about an empty accumulator was logged. *)
Theorem evaluate_clears_results D cm size self w v s' :
  evaluate D cm size (self, w) = (Return v, s') ->
  s'.1.(results) = [].
Proof.
  rewrite evaluate_run. intros H. run_cases.
Qed.

(** C10: a step of [evaluate] that raises makes [evaluate] raise the same
    error with the metric as it was, accumulator included: so it is for
    the collection, for [compute_metrics], for the prefixing and for the
    broadcast (the relocation cannot raise here).  And whenever
    [evaluate(size)] raises, in a process whose broadcast overwrites the
    list in place, the accumulator is as it was before the call: it is
    cleared only when [evaluate] returns. *)
Theorem evaluate_raise_keeps_results D cm size self w :
  (forall e w2,
     collect_results D self.(results) size self.(collect_device) (after_warning self w)
       = (Raise e, w2) ->
     evaluate D cm size (self, w) = (Raise e, (self, w2))) /\
  (forall collected w2 e w3,
     collect_results D self.(results) size self.(collect_device) (after_warning self w)
       = (Return collected, w2) ->
     is_main_process D = true ->
     cm self (_to_cpu collected) w2 = (Raise e, w3) ->
     evaluate D cm size (self, w) = (Raise e, (self, w3))) /\
  (forall collected w2 d w3 e,
     collect_results D self.(results) size self.(collect_device) (after_warning self w)
       = (Return collected, w2) ->
     is_main_process D = true ->
     cm self (_to_cpu collected) w2 = (Return d, w3) ->
     truthy self.(prefix) = true ->
     add_prefix self.(prefix) d [] = Raise e ->
     evaluate D cm size (self, w) = (Raise e, (self, w3))) /\
  (forall collected w2 metrics w3 e w4,
     collect_results D self.(results) size self.(collect_device) (after_warning self w)
       = (Return collected, w2) ->
     (if is_main_process D then reduce cm self collected w2 else (Return [VNone], w2))
       = (Return metrics, w3) ->
     broadcast_object_list D metrics w3 = (Raise e, w4) ->
     evaluate D cm size (self, w) = (Raise e, (self, w4))) /\
  (broadcast_in_place D ->
   forall e s',
     evaluate D cm size (self, w) = (Raise e, s') ->
     s'.1.(results) = self.(results)).
Proof.
  split_and!.
  - intros e w2 Hcollect. by rewrite evaluate_run, Hcollect.
  - intros collected w2 e w3 Hcollect Hmain Hcm.
    rewrite evaluate_run, Hcollect, Hmain. unfold reduce. by rewrite Hcm.
  - intros collected w2 d w3 e Hcollect Hmain Hcm Hp Hjoin.
    rewrite evaluate_run, Hcollect, Hmain. unfold reduce. by rewrite Hcm, Hp, Hjoin.
  - intros collected w2 metrics w3 e w4 Hcollect Hred Hb.
    by rewrite evaluate_run, Hcollect, Hred, Hb.
  - intros Hbc e s'. rewrite evaluate_run. intros H.
    destruct (collect_results D _ _ _ _) as [[collected|e1] w2]; [|by simplify_eq].
    destruct (if is_main_process D then _ else _) as [[metrics|e2] w3] eqn:Hred;
      [|by simplify_eq].
    assert (length metrics = 1%nat) as Hlen.
    { destruct (is_main_process D); [by eapply reduce_singleton|by simplify_eq]. }
    destruct (broadcast_object_list D metrics w3) as [[[|m ms]|e3] w4] eqn:Hb;
      [|by simplify_eq..].
    apply Hbc in Hb. simpl in Hb. congruence.
Qed.

(** ** The prefix *)

#[global] Instance prefix_key_inj p : Inj (=) (=) (prefix_key p).
Proof.
  intros [s1|n1] [s2|n2] Heq; simpl in Heq; by simplify_eq.
Qed.

Lemma add_prefix_str p d acc :
  Forall (fun k => is_str k = true) (PyDict.keys d) ->
  NoDup (PyDict.keys acc ++ (prefix_key p <$> PyDict.keys d)) ->
  add_prefix (Some p) d acc = Return (acc ++ rename_keys p d).
Proof.
  revert acc. induction d as [|[k v] d IH]; intros acc Hstr Hnd; simpl.
  - by rewrite app_nil_r.
  - apply Forall_cons in Hstr as [Hk Hstr]. destruct k as [s|n]; [|done]. simpl.
    simpl in Hnd. apply (keys_snoc_fresh _ _ v) in Hnd as [Hfresh Hnd].
    rewrite setitem_fresh, IH by done.
    by rewrite <- app_assoc.
Qed.

Lemma add_prefix_reported p d :
  truthy (Some p) = true ->
  PyDict.wf d ->
  Forall (fun k => is_str k = true) (PyDict.keys d) ->
  add_prefix (Some p) d [] = Return (reported (Some p) d).
Proof.
  intros Hp Hwf Hstr. rewrite add_prefix_str; [|done|].
  - simpl in *. by destruct (String.eqb p "").
  - simpl. by apply (NoDup_fmap_2 _).
Qed.

Lemma reduce_reported cm self collected w d w' :
  cm self (_to_cpu collected) w = (Return d, w') ->
  PyDict.wf d ->
  Forall (fun k => is_str k = true) (PyDict.keys d) ->
  reduce cm self collected w = (Return [VDict (reported self.(prefix) d)], w').
Proof.
  intros Hcm Hwf Hstr. unfold reduce. rewrite Hcm.
  destruct (prefix self) as [p|] eqn:Hp; simpl; [|done].
  destruct (String.eqb p "") eqn:Hempty; simpl; [done|].
  rewrite add_prefix_reported; [|by simpl; rewrite Hempty|done..].
  simpl. by rewrite Hempty.
Qed.

(** [evaluate] in a single-worker setup. *)
Lemma evaluate_single_worker_run D cm size self w :
  SingleWorker D ->
  valid_device self.(collect_device) = true ->
  evaluate D cm size (self, w) =
  match reduce cm self (VList (slice_to self.(results) size)) (after_warning self w) with
  | (Return (m :: _), w') => (Return m, (clear_results self, w'))
  | (Return [], w') =>
      (Raise (IndexError "list index out of range"), (clear_results self, w'))
  | (Raise e, w') => (Raise e, (self, w'))
  end.
Proof.
  intros [Hmain Hcollect Hbroadcast] Hdev.
  rewrite evaluate_run, Hcollect, Hmain by done.
  destruct (reduce _ _ _ _) as [[metrics|e] w']; [|done].
  by rewrite Hbroadcast.
Qed.

(** C1, amended: in a single-worker setup with one of the two documented
    collection devices, when [compute_metrics] returns a mapping [d] with
    string keys for the accumulator cut to [size] and relocated to host
    memory, [evaluate(size)] returns [d] with every key [k] replaced by
    [prefix + "/" + k] when the prefix is a non-empty string, and [d] with
    its keys unchanged when the prefix is [None] or empty. *)
Theorem evaluate_single_worker D cm size self w d w' :
  SingleWorker D ->
  valid_device self.(collect_device) = true ->
  cm self (_to_cpu (VList (slice_to self.(results) size))) (after_warning self w)
    = (Return d, w') ->
  PyDict.wf d ->
  Forall (fun k => is_str k = true) (PyDict.keys d) ->
  evaluate D cm size (self, w)
    = (Return (VDict (reported self.(prefix) d)), (clear_results self, w')).
Proof.
  intros HD Hdev Hcm Hwf Hstr.
  rewrite evaluate_single_worker_run by done.
  by rewrite (reduce_reported _ _ _ _ d w').
Qed.

Lemma single_process_SingleWorker : SingleWorker single_process.
Proof.
  split; [done| |done].
  intros r size dev w Hdev. simpl. by rewrite Hdev.
Qed.

Lemma single_process_in_place : broadcast_in_place single_process.
Proof.
  intros m w m' w' H. simpl in H. unfold mret, M_ret in H. by simplify_eq.
Qed.

Create HintDb metric.
#[global] Hint Resolve single_process_SingleWorker single_process_in_place : metric.

Lemma evaluate_single_worker_witness :
  evaluate single_process first_result 1 (gpu_metric, empty_world)
  = (Return (VDict [(KStr "acc/first", VTensor (mkTensor cpu [1; 2]))]),
     (clear_results gpu_metric, empty_world)).
Proof.
  apply (evaluate_single_worker single_process first_result 1 gpu_metric empty_world
           [(KStr "first", VTensor (mkTensor cpu [1; 2]))] empty_world).
  - auto with metric.
  - reflexivity.
  - reflexivity.
  - unfold PyDict.wf. simpl. apply NoDup_singleton.
  - simpl. repeat constructor.
Defined.

(** C1 as stated fails.  The mapping of [evaluate] is not the stated one:
    a tensor that [compute_metrics] reports has been brought to host memory
    first, and a prefix that is the empty string renames nothing. *)
Lemma evaluate_stated_counterexample :
  (evaluate single_process first_result 1 (gpu_metric, empty_world)).1
    <> evaluate_stated first_result gpu_metric 1 empty_world /\
  (evaluate single_process first_result 1 (plain_metric, empty_world)).1
    <> evaluate_stated first_result plain_metric 1 empty_world.
Proof. split; vm_compute; intros H; discriminate H. Qed.

(** [plain_metric] is an instance that construction gives, once a result
    has been processed. *)
Example plain_metric_constructed :
  (fun r => match r.1 with
            | Return self => Some (with_results [VInt 1] self)
            | Raise _ => None
            end) (BaseMetric__init__ Plain "cpu" None empty_world)
  = Some plain_metric.
Proof. reflexivity. Qed.

(** ** Construction *)

Lemma evaluate_keeps_prefix D cm size self w r s' :
  evaluate D cm size (self, w) = (r, s') -> s'.1.(prefix) = self.(prefix).
Proof.
  rewrite evaluate_run. intros H. run_cases.
Qed.

(** C7 as stated fails.  A constructor argument that is given and is the
    empty string does not stand: the variant's default takes its place. *)
Lemma prefix_resolved_counterexample :
  exists self w,
    BaseMetric__init__ Accuracy "cpu" (Some "") empty_world = (Return self, w) /\
    self.(prefix) <> Some "".
Proof. eexists _, _. split; [reflexivity|]. simpl. discriminate. Qed.

(** C7, amended: the prefix is resolved at construction and [evaluate]
    leaves it alone.  It is the constructor argument when one is given and
    is not the empty string, otherwise the variant's [default_prefix].  When
    the resolved prefix is [None] the constructor logs one warning and does
    not raise, and [evaluate] reports the keys of [compute_metrics] as they
    are. *)
Theorem prefix_resolved_at_construction cls dev prefix' w :
  exists self w',
    BaseMetric__init__ cls dev prefix' w = (Return self, w') /\
    (forall p, prefix' = Some p -> p <> "" -> self.(prefix) = Some p) /\
    (prefix' = None \/ prefix' = Some "" -> self.(prefix) = default_prefix cls) /\
    (self.(prefix) = None ->
       w' = {| logs := logs w ++ [prefix_warning cls]; files := files w |}) /\
    (self.(prefix) <> None -> w' = w) /\
    (forall D cm size R w1 r s',
       evaluate D cm size (with_results R self, w1) = (r, s') ->
       s'.1.(prefix) = self.(prefix)) /\
    (self.(prefix) = None ->
       forall D cm size R w1 d w2,
         SingleWorker D ->
         valid_device dev = true ->
         cm (with_results R self) (_to_cpu (VList (slice_to R size)))
            (after_warning (with_results R self) w1) = (Return d, w2) ->
         evaluate D cm size (with_results R self, w1)
           = (Return (VDict d), (clear_results self, w2))).
Proof.
  unfold BaseMetric__init__, mbind, M_bind, mret, M_ret.
  set (self := {| __class__ := cls; _dataset_meta := None; collect_device := dev;
                  results := []; prefix := py_or prefix' (default_prefix cls) |}).
  assert (forall D cm size R w1 r s',
            evaluate D cm size (with_results R self, w1) = (r, s') ->
            s'.1.(prefix) = self.(prefix)) as Hkeep.
  { intros D cm size R w1 r s' H. by apply evaluate_keeps_prefix in H. }
  assert (self.(prefix) = None ->
          forall D cm size R w1 d w2,
            SingleWorker D ->
            valid_device dev = true ->
            cm (with_results R self) (_to_cpu (VList (slice_to R size)))
               (after_warning (with_results R self) w1) = (Return d, w2) ->
            evaluate D cm size (with_results R self, w1)
              = (Return (VDict d), (clear_results self, w2))) as Heval.
  { intros Hnone D cm size R w1 d w2 HD Hdev Hcm.
    rewrite evaluate_single_worker_run by done.
    unfold reduce. simpl in *. rewrite Hcm, Hnone. done. }
  assert ((forall p, prefix' = Some p -> p <> "" -> self.(prefix) = Some p) /\
          (prefix' = None \/ prefix' = Some "" -> self.(prefix) = default_prefix cls))
    as [Hgiven Hdefault].
  { simpl. unfold py_or. split.
    - intros p -> Hp. simpl. by destruct (String.eqb_spec p "").
    - by intros [-> | ->]. }
  destruct (prefix self) as [p|] eqn:Hp; simpl; eexists _, _;
    (split; [reflexivity|]); split_and!; try done.
  all: fold self; by rewrite Hp.
Qed.

Lemma prefix_resolved_at_construction_witness :
  exists self w',
    BaseMetric__init__ Bare "cpu" None empty_world = (Return self, w') /\
    self.(prefix) = None /\
    w' = {| logs := [prefix_warning Bare]; files := ∅ |} /\
    evaluate single_process first_result 1 (with_results [VInt 5] self, w')
      = (Return (VDict [(KStr "first", VInt 5)]), (clear_results self, w')).
Proof.
  destruct (prefix_resolved_at_construction Bare "cpu" None empty_world)
    as (self & w' & Hinit & _ & Hdefault & Hwarn & _ & _ & Heval).
  assert (self.(prefix) = None) as Hnone by (apply Hdefault; by left).
  exists self, w'. split_and!; [done|done|by apply Hwarn|].
  apply (Heval Hnone single_process first_result 1 [VInt 5] w'
           [(KStr "first", VInt 5)] w').
  - auto with metric.
  - reflexivity.
  - reflexivity.
Defined.

(** ** The empty accumulator *)

(** C8: [evaluate] on an empty accumulator does not raise for it.  The
    warning is logged, and collection, reduction, broadcast and return go
    on from the world that holds it; with one worker the call returns as
    soon as [compute_metrics] accepts the empty list. *)
Theorem evaluate_empty_results D cm size self w :
  self.(results) = [] ->
  let w1 := {| logs := logs w ++ [mkLog WARNING (empty_results_message self)];
               files := files w |} in
  evaluate D cm size (self, w) =
    match collect_results D [] size self.(collect_device) w1 with
    | (Raise e, w2) => (Raise e, (self, w2))
    | (Return collected, w2) =>
        match (if is_main_process D then reduce cm self collected w2
               else (Return [VNone], w2)) with
        | (Raise e, w3) => (Raise e, (self, w3))
        | (Return metrics, w3) =>
            match broadcast_object_list D metrics w3 with
            | (Raise e, w4) => (Raise e, (self, w4))
            | (Return [], w4) =>
                (Raise (IndexError "list index out of range"), (clear_results self, w4))
            | (Return (m :: _), w4) => (Return m, (clear_results self, w4))
            end
        end
    end /\
  (SingleWorker D ->
   valid_device self.(collect_device) = true ->
   forall d w',
     cm self (VList []) w1 = (Return d, w') ->
     PyDict.wf d ->
     Forall (fun k => is_str k = true) (PyDict.keys d) ->
     evaluate D cm size (self, w)
       = (Return (VDict (reported self.(prefix) d)), (clear_results self, w'))).
Proof.
  intros Hempty w1.
  assert (after_warning self w = w1) as Hw.
  { unfold after_warning. by rewrite Hempty. }
  assert (slice_to (@nil value) size = []) as Hslice.
  { unfold slice_to. case_bool_decide; apply take_nil. }
  split.
  - by rewrite evaluate_run, Hw, Hempty.
  - intros HD Hdev d w' Hcm Hwf Hstr.
    rewrite evaluate_single_worker_run, Hw, Hempty, Hslice by done.
    by rewrite (reduce_reported _ _ _ _ d w').
Qed.

Lemma evaluate_empty_results_witness :
  evaluate single_process first_result 4 (bare_metric, empty_world)
  = (Return (VDict [(KStr "first", VNone)]),
     (bare_metric,
      {| logs := [mkLog WARNING (empty_results_message bare_metric)]; files := ∅ |})).
Proof.
  apply (evaluate_empty_results single_process first_result 4 bare_metric empty_world
           eq_refl).
  - auto with metric.
  - reflexivity.
  - reflexivity.
  - unfold PyDict.wf. simpl. apply NoDup_singleton.
  - simpl. repeat constructor.
Defined.

(** ** Dataset metadata *)

Lemma BaseMetric__init___constructed cls dev prefix' w :
  (BaseMetric__init__ cls dev prefix' w).1 = Return (constructed cls dev prefix').
Proof.
  unfold BaseMetric__init__, mbind, M_bind, mret, M_ret, constructed. simpl.
  destruct (py_or prefix' (default_prefix cls)); reflexivity.
Qed.

(** C9 as stated fails.  The metadata of a metric can be replaced: after a
    second set the first mapping is gone. *)
Lemma dataset_meta_counterexample :
  dataset_meta (set_dataset_meta [(KStr "classes", VInt 3)]
                  (set_dataset_meta [(KStr "classes", VInt 2)] bare_metric))
  <> Some [(KStr "classes", VInt 2)].
Proof. simpl. intros H. discriminate H. Qed.

(** C9, amended: the dataset metadata is [None] at construction and can be
    set any number of times after it; reading it gives the mapping of the
    last set, and a set changes nothing else of the metric. *)
Theorem dataset_meta_last_set :
  (forall cls dev prefix' w,
     exists self w', BaseMetric__init__ cls dev prefix' w = (Return self, w') /\
                     dataset_meta self = None) /\
  (forall meta self, dataset_meta (set_dataset_meta meta self) = Some meta) /\
  (forall meta1 meta2 self,
     set_dataset_meta meta2 (set_dataset_meta meta1 self) = set_dataset_meta meta2 self) /\
  (forall meta self,
     (set_dataset_meta meta self).(results) = self.(results) /\
     (set_dataset_meta meta self).(prefix) = self.(prefix) /\
     (set_dataset_meta meta self).(collect_device) = self.(collect_device) /\
     (set_dataset_meta meta self).(__class__) = self.(__class__)).
Proof.
  split_and!; try done.
  intros cls dev prefix' w.
  pose proof (BaseMetric__init___constructed cls dev prefix' w) as H.
  destruct (BaseMetric__init__ cls dev prefix' w) as [r w'].
  simpl in H. subst r. by eexists _, _.
Qed.

(** ** [DumpResults] *)

Lemma endswith_spec s suffix :
  endswith s suffix = true <-> exists p, s = p +:+ suffix.
Proof.
  induction s as [|a s IH].
  - change (endswith "" suffix) with (String.eqb "" suffix || false).
    rewrite orb_false_r, String.eqb_eq. split.
    + intros <-. by exists "".
    + intros [[|b p] Hp]; simpl in Hp; [done|discriminate].
  - change (endswith (String a s) suffix)
      with (String.eqb (String a s) suffix || endswith s suffix).
    rewrite orb_true_iff, String.eqb_eq, IH. split.
    + intros [<- | [p ->]]; [by exists ""|by exists (String a p)].
    + intros [[|b p] Hp]; simpl in Hp; [by left|].
      right. exists p. by injection Hp.
Qed.

Lemma endswith_any_recognized path :
  endswith_any path [".pkl"; ".pickle"] = true <-> recognized_extension path.
Proof.
  unfold endswith_any, recognized_extension.
  change (existsb (endswith path) [".pkl"; ".pickle"])
    with (endswith path ".pkl" || (endswith path ".pickle" || false)).
  rewrite orb_false_r, orb_true_iff, !endswith_spec. done.
Qed.

Arguments endswith_any : simpl never.

Lemma DumpResults__init___run path dev w :
  DumpResults__init__ path dev w =
  let w' := {| logs := logs w ++ [prefix_warning DumpResults_class]; files := files w |} in
  if endswith_any path [".pkl"; ".pickle"] then
    (Return {| base := constructed DumpResults_class dev None; out_file_path := path |}, w')
  else (Raise (ValueError "The output file must be a pkl file."), w').
Proof.
  unfold DumpResults__init__, mbind, M_bind, mret, M_ret. simpl.
  by destruct (endswith_any path _).
Qed.

(** C5: constructing [DumpResults] raises [ValueError] exactly when the
    path does not end in [.pkl] or [.pickle], and the error is the outcome
    of the constructor itself: no instance comes back.  ["out.json"] is
    refused; ["out.pkl"] and ["out.pickle"] are accepted. *)
Theorem DumpResults__init___validates :
  (forall path dev w,
     (exists e w', DumpResults__init__ path dev w = (Raise e, w'))
     <-> ~ recognized_extension path) /\
  (forall path dev w,
     (exists self w', DumpResults__init__ path dev w = (Return self, w') /\
                      self.(out_file_path) = path /\ self.(base).(results) = [])
     <-> recognized_extension path) /\
  (forall path dev w e w',
     DumpResults__init__ path dev w = (Raise e, w') ->
     e = ValueError "The output file must be a pkl file.") /\
  (DumpResults__init__ "out.json" "cpu" empty_world).1
    = Raise (ValueError "The output file must be a pkl file.") /\
  (exists self, (DumpResults__init__ "out.pkl" "cpu" empty_world).1 = Return self) /\
  (exists self, (DumpResults__init__ "out.pickle" "cpu" empty_world).1 = Return self).
Proof.
  split_and!.
  - intros path dev w. rewrite DumpResults__init___run, <- endswith_any_recognized.
    simpl. destruct (endswith_any path _); split.
    + by intros (e & w' & ?).
    + by intros [].
    + done.
    + intros _. by eexists _, _.
  - intros path dev w. rewrite DumpResults__init___run, <- endswith_any_recognized.
    simpl. destruct (endswith_any path _); split; try done.
    + intros _. by eexists _, _.
    + by intros (self & w' & ? & _).
  - intros path dev w e w'. rewrite DumpResults__init___run. simpl.
    destruct (endswith_any path _); intros H; by simplify_eq.
  - reflexivity.
  - by eexists.
  - by eexists.
Qed.

(** C6: [compute_metrics] of [DumpResults] writes the whole collected list
    to the configured path, leaves the other files alone, logs the path and
    returns the empty mapping. *)
Theorem DumpResults_compute_metrics_dumps self results' w :
  exists w',
    DumpResults_compute_metrics self results' w = (Return [], w') /\
    files w' !! self.(out_file_path) = Some results' /\
    (forall path, path <> self.(out_file_path) -> files w' !! path = files w !! path) /\
    logs w' = logs w ++
      [mkLog INFO ("Results has been saved to " +:+ self.(out_file_path) +:+ ".")].
Proof.
  eexists. split; [reflexivity|]. simpl. split_and!.
  - apply lookup_insert_eq.
  - intros path Hne. by apply lookup_insert_ne.
  - done.
Qed.

(** ** A round of several workers *)

Lemma list_eqb_eq {A} (eqb : A -> A -> bool) (l l' : list A) :
  Forall (fun x => forall y, eqb x y = true <-> x = y) l ->
  list_eqb eqb l l' = true <-> l = l'.
Proof.
  intros Hl. revert l'. induction Hl as [|x l Hx _ IH]; intros [|y l']; simpl;
    try (split; [discriminate|done]); [done|].
  rewrite andb_true_iff, Hx, IH. split; [by intros [-> ->]|by intros [= -> ->]].
Qed.

Lemma value_eqb_eq a c : value_eqb a c = true <-> a = c.
Proof.
  revert c.
  induction a as [| | | | | | |items IH|items IH|items IH] using value_ind';
    intros c; destruct c; simpl;
    try (split; [discriminate|done]);
    rewrite ?andb_true_iff, ?bool_decide_eq_true; try (split; congruence).
  - split; [by intros [-> ->]|by intros [= -> ->]].
  - rewrite list_eqb_eq by done. split; congruence.
  - rewrite list_eqb_eq by done. split; congruence.
  - rewrite list_eqb_eq; [split; congruence|].
    eapply Forall_impl; [exact IH|]. intros [k v] Hv [k' v']. simpl in *.
    rewrite andb_true_iff, bool_decide_eq_true, Hv. split; [by intros [-> ->]|].
    by intros [= -> ->].
Qed.

(** The designated worker completes the round of [wire] only when [wire]
    is the list it filled, and then it returns the mapping in it. *)
Lemma evaluate_designated gathered wire cm size self w v s :
  evaluate (designated gathered wire) cm size (self, w) = (Return v, s) ->
  valid_device self.(collect_device) = true /\
  reduce cm self gathered (after_warning self w) = (Return [v], s.2) /\
  wire = [v] /\
  s.1 = clear_results self.
Proof.
  rewrite evaluate_run. simpl. unfold raise, mret, M_ret.
  destruct (valid_device (collect_device self)); [|intros H; by simplify_eq].
  destruct (reduce _ _ _ _) as [[metrics|e] w'] eqn:Hred; [|intros H; by simplify_eq].
  pose proof (reduce_singleton _ _ _ _ _ _ Hred) as Hlen.
  destruct (list_eqb value_eqb metrics wire) eqn:Heq; [|intros H; by simplify_eq].
  apply list_eqb_eq in Heq as <-;
    [|apply Forall_true; intros x y; apply value_eqb_eq].
  destruct metrics as [|m [|m' ms]]; simplify_eq/=.
  by intros [= -> <-].
Qed.

(** A worker that is not the designated one returns what the broadcast
    carries and has not run [compute_metrics]. *)
Lemma evaluate_follower v cm size self w :
  valid_device self.(collect_device) = true ->
  evaluate (follower [v]) cm size (self, w)
  = (Return v, (clear_results self, after_warning self w)).
Proof.
  intros Hdev. rewrite evaluate_run. simpl. by rewrite Hdev.
Qed.

(** C3: in a round of workers built with the same collection device that
    completes, the list the broadcast carries is the one the designated
    worker filled with the mapping it computed from the gathered results,
    and every worker's [evaluate(size)] returns that same mapping; the
    other workers only log their warning and clear their accumulator,
    without running [compute_metrics]. *)
Theorem round_identical cm gathered wire main others size outs :
  Forall (fun s => s.1.(collect_device) = main.1.(collect_device)) others ->
  round cm gathered wire (main :: others) size = Some outs ->
  exists v s,
    evaluate (designated gathered wire) cm size main = (Return v, s) /\
    reduce cm main.1 gathered (after_warning main.1 main.2) = (Return [v], s.2) /\
    wire = [v] /\
    outs = (Return v, s) ::
           ((fun s' => (Return v, (clear_results s'.1, after_warning s'.1 s'.2)))
              <$> others) /\
    length outs = length (main :: others) /\
    Forall (fun o => o.1 = Return v) outs.
Proof.
  intros Hdev. unfold round.
  destruct (evaluate _ cm size main) as [[v|e] s] eqn:Hmain; [|done].
  intros [= <-]. exists v, s. split; [reflexivity|].
  assert (valid_device main.1.(collect_device) = true /\
          reduce cm main.1 gathered (after_warning main.1 main.2) = (Return [v], s.2) /\
          wire = [v]) as (Hvalid & Hred & ->).
  { destruct main as [self w]. apply evaluate_designated in Hmain. tauto. }
  split; [exact Hred|]. split; [reflexivity|].
  assert (evaluate (follower [v]) cm size <$> others
          = (fun s' => (Return v, (clear_results s'.1, after_warning s'.1 s'.2)))
              <$> others) as ->.
  { apply list_fmap_ext. intros i [self w] Hi. simpl.
    apply evaluate_follower.
    rewrite Forall_lookup in Hdev. specialize (Hdev _ _ Hi). simpl in Hdev.
    congruence. }
  split; [done|]. split.
  - simpl. by rewrite length_fmap.
  - constructor; [done|]. apply Forall_fmap. by apply Forall_true.
Qed.

(** ** Rounds on concrete inputs *)

Lemma evaluate_clears_results_witness :
  evaluate single_process first_result 1 (plain_metric, empty_world)
    = (Return (VDict [(KStr "first", VInt 1)]), (clear_results plain_metric, empty_world)) /\
  (clear_results plain_metric, empty_world).1.(results) = [].
Proof.
  split; [reflexivity|].
  apply (evaluate_clears_results single_process first_result 1 plain_metric empty_world
           (VDict [(KStr "first", VInt 1)])).
  reflexivity.
Defined.

Lemma evaluate_raise_keeps_results_witness :
  evaluate single_process failing 2 (gpu_metric, empty_world)
    = (Raise (RuntimeError "no metric can be computed"), (gpu_metric, empty_world)) /\
  evaluate single_process int_keyed 2 (gpu_metric, empty_world)
    = (Raise (TypeError "sequence item 1: expected str instance, int found"),
       (gpu_metric, empty_world)) /\
  (gpu_metric, empty_world).1.(results) = gpu_metric.(results).
Proof.
  destruct (evaluate_raise_keeps_results single_process failing 2 gpu_metric empty_world)
    as (_ & Hcm & _).
  destruct (evaluate_raise_keeps_results single_process int_keyed 2 gpu_metric
              empty_world) as (_ & _ & Hjoin & _ & Hkeep).
  split_and!.
  - apply (Hcm (VList (slice_to gpu_metric.(results) 2)) empty_world); reflexivity.
  - apply (Hjoin (VList (slice_to gpu_metric.(results) 2)) empty_world
             [(KInt 1, VInt 0)]); reflexivity.
  - apply (Hkeep single_process_in_place
             (TypeError "sequence item 1: expected str instance, int found")).
    apply (Hjoin (VList (slice_to gpu_metric.(results) 2)) empty_world
             [(KInt 1, VInt 0)]); reflexivity.
Defined.

Lemma round_identical_witness :
  exists outs,
    round first_result three_gathered [three_mapping] three_workers 3 = Some outs /\
    Forall (fun o => o.1 = Return three_mapping) outs /\
    length outs = 3%nat.
Proof.
  destruct (round first_result three_gathered [three_mapping] three_workers 3)
    as [outs|] eqn:Hround; [|vm_compute in Hround; discriminate Hround].
  destruct (round_identical first_result three_gathered [three_mapping]
              (gpu_metric, empty_world)
              [(with_results [] gpu_metric, empty_world);
               (with_results [VInt 4] gpu_metric, empty_world)] 3 outs)
    as (v & s & _ & _ & Hwire & _ & Hlen & Hall).
  - repeat constructor.
  - exact Hround.
  - exists outs. split; [reflexivity|].
    injection Hwire as <-.
    split; [exact Hall|exact Hlen].
Defined.

(** No round of [three_workers] carries another list than the one the
    designated worker fills: with [None] on the wire the round has no
    result. *)
Example round_wire_example :
  round first_result three_gathered [VNone] three_workers 3 = None.
Proof. vm_compute. reflexivity. Qed.

(** One [DumpResults] worker by itself: the inherited [evaluate] writes the
    processed predictions, returns the empty mapping and clears the
    accumulator. *)
Example DumpResults_evaluate_example :
  match dump_worker [prediction 1 9; prediction 2 1] with
  | Some s =>
      (fun r => (r.1, r.2.1.(base).(results), files r.2.2 !! "out.pkl"))
        (DumpResults_evaluate single_process 2 s)
  | None => (Raise (RuntimeError "no worker"), [], None)
  end
  = (Return (VDict []), [], Some (VList [prediction 1 9; prediction 2 1])).
Proof. vm_compute. reflexivity. Qed.

Example dump_round_example :
  dump_round = Some ([Return (VDict []); Return (VDict [])],
                     Some (VList [prediction 1 9; prediction 2 1])).
Proof. vm_compute. reflexivity. Qed.

(** * Further properties *)

(** ** What a comprehension keeps *)

Section PyDictInvariants.

Context {V : Type}.
Implicit Types (d : PyDict.t V) (k : key) (v : V).

Lemma setitem_Forall (P : key * V -> Prop) d k v :
  Forall P d -> P (k, v) -> Forall P (PyDict.setitem d k v).
Proof.
  intros Hd Hkv. induction d as [|[k' v'] d IH]; simpl.
  - by constructor.
  - apply Forall_cons in Hd as [Hhd Htl].
    destruct (decide (k' = k)) as [->|_]; constructor; auto.
Qed.

Lemma setitem_keys_present d k v :
  k ∈ PyDict.keys d -> PyDict.keys (PyDict.setitem d k v) = PyDict.keys d.
Proof.
  unfold PyDict.keys. induction d as [|[k' v'] d IH]; simpl; intros Hin.
  - by apply elem_of_nil in Hin.
  - destruct (decide (k' = k)) as [->|Hne]; simpl; [done|].
    apply elem_of_cons in Hin as [->|Hin]; [done|]. f_equal. by apply IH.
Qed.

Lemma setitem_wf d k v : PyDict.wf d -> PyDict.wf (PyDict.setitem d k v).
Proof.
  unfold PyDict.wf. intros Hnd.
  destruct (decide (k ∈ PyDict.keys d)) as [Hin|Hnotin].
  - by rewrite setitem_keys_present.
  - rewrite setitem_fresh, keys_app by done. simpl.
    apply NoDup_app. split_and!; [done| |apply NoDup_singleton].
    intros x Hx ->%list_elem_of_singleton. done.
Qed.

(** A property of the empty dictionary that every assignment of the
    comprehension keeps holds of its result. *)
Lemma comprehension_invariant {W} (I : PyDict.t V -> Prop)
    (kf : key -> key) (vf : W -> V) (items : PyDict.t W) :
  I [] ->
  (forall acc kv, kv ∈ items -> I acc -> I (PyDict.setitem acc (kf kv.1) (vf kv.2))) ->
  I (PyDict.comprehension kf vf items).
Proof.
  unfold PyDict.comprehension. generalize (@nil (key * V)).
  induction items as [|kv items IH]; intros acc Hacc Hstep; simpl; [done|].
  apply IH.
  - apply Hstep; [left|done].
  - intros acc' kv' Hin. apply Hstep. by right.
Qed.

Lemma comprehension_wf_result {W} (kf : key -> key) (vf : W -> V) (items : PyDict.t W) :
  PyDict.wf (PyDict.comprehension kf vf items).
Proof.
  apply (comprehension_invariant PyDict.wf).
  - apply NoDup_nil_2.
  - intros acc kv _. apply setitem_wf.
Qed.

Lemma comprehension_Forall {W} (P : key * V -> Prop)
    (kf : key -> key) (vf : W -> V) (items : PyDict.t W) :
  (forall kv, kv ∈ items -> P (kf kv.1, vf kv.2)) ->
  Forall P (PyDict.comprehension kf vf items).
Proof.
  intros HP. apply (comprehension_invariant (Forall P)).
  - constructor.
  - intros acc kv Hin Hacc. apply setitem_Forall; auto.
Qed.

End PyDictInvariants.

(** ** [_to_cpu] once more *)

(** The dictionaries [_to_cpu] builds have distinct keys, whatever it was
    given. *)
Lemma _to_cpu_well_formed data : well_formed (_to_cpu data) = true.
Proof.
  induction data as [| | | | | | |items IH|items IH|items IH] using value_ind';
    try reflexivity.
  - simpl. apply forallb_true_Forall. by apply Forall_fmap.
  - simpl. apply forallb_true_Forall. by apply Forall_fmap.
  - change (_to_cpu (VDict items))
      with (VDict (PyDict.comprehension (fun k => k) _to_cpu items)).
    simpl. apply andb_true_iff. split.
    + apply bool_decide_eq_true. apply comprehension_wf_result.
    + apply forallb_true_Forall.
      apply (comprehension_Forall (fun kv => well_formed kv.2 = true)).
      rewrite Forall_forall in IH. intros kv Hin. by apply IH.
Qed.

(** Whatever [_to_cpu] returns has every tensor and every data element in
    host memory. *)
Lemma _to_cpu_host data : on_cpu (_to_cpu data) = true.
Proof.
  induction data as [| | | | | | |items IH|items IH|items IH] using value_ind';
    try reflexivity.
  - simpl. apply forallb_true_Forall. by apply Forall_fmap.
  - simpl. apply forallb_true_Forall. by apply Forall_fmap.
  - change (_to_cpu (VDict items))
      with (VDict (PyDict.comprehension (fun k => k) _to_cpu items)).
    simpl. apply forallb_true_Forall.
    apply (comprehension_Forall (fun kv => on_cpu kv.2 = true)).
    rewrite Forall_forall in IH. intros kv Hin. by apply IH.
Qed.

Lemma fmap_fixed {A} (f : A -> A) (l : list A) :
  Forall (fun x => f x = x) l -> f <$> l = l.
Proof.
  induction 1 as [|x l Hx _ IH]; csimpl; [done|]. by rewrite Hx, IH.
Qed.

Lemma _to_cpu_fixed data :
  on_cpu data = true -> well_formed data = true -> _to_cpu data = data.
Proof.
  induction data as [| | | | |t|e|items IH|items IH|items IH] using value_ind';
    intros Hcpu Hwf; try reflexivity.
  - simpl in *. apply bool_decide_eq_true in Hcpu. destruct t as [dev xs].
    simpl in Hcpu. by subst dev.
  - simpl in *. apply bool_decide_eq_true in Hcpu. destruct e as [dev fs].
    simpl in Hcpu. by subst dev.
  - simpl in *. apply forallb_true_Forall in Hcpu, Hwf. f_equal.
    apply fmap_fixed. rewrite Forall_forall in IH, Hcpu, Hwf.
    apply Forall_forall. intros x Hx. apply IH; auto.
  - simpl in *. apply forallb_true_Forall in Hcpu, Hwf. f_equal.
    apply fmap_fixed. rewrite Forall_forall in IH, Hcpu, Hwf.
    apply Forall_forall. intros x Hx. apply IH; auto.
  - simpl in Hcpu, Hwf. apply andb_true_iff in Hwf as [Hnd Hwf].
    apply bool_decide_eq_true in Hnd.
    apply forallb_true_Forall in Hcpu, Hwf.
    rewrite _to_cpu_dict by done. f_equal.
    apply fmap_fixed. rewrite Forall_forall in IH, Hcpu, Hwf.
    apply Forall_forall. intros [k v] Hx. simpl. f_equal.
    apply (IH (k, v)); [done|by apply (Hcpu (k, v))|by apply (Hwf (k, v))].
Qed.

(** X1: whatever [_to_cpu] returns has every tensor and every data element
    in host memory, at every depth of lists, tuples and dictionaries, and
    [_to_cpu] is idempotent: relocating a relocated value changes nothing,
    so a value may pass through [process] and then through [evaluate]. *)
Theorem _to_cpu_idempotent data :
  on_cpu (_to_cpu data) = true /\ _to_cpu (_to_cpu data) = _to_cpu data.
Proof.
  split; [apply _to_cpu_host|].
  apply _to_cpu_fixed; [apply _to_cpu_host|apply _to_cpu_well_formed].
Qed.

(** X2: the values [_to_cpu] leaves as they are are those whose tensors and
    data elements are all in host memory already. *)
Theorem _to_cpu_identity_iff_on_cpu data :
  well_formed data = true ->
  _to_cpu data = data <-> on_cpu data = true.
Proof.
  intros Hwf. split.
  - intros Hfix. rewrite <- Hfix. apply _to_cpu_host.
  - intros Hcpu. by apply _to_cpu_fixed.
Qed.

Lemma _to_cpu_identity_iff_on_cpu_witness :
  well_formed nested_example = true /\
  on_cpu nested_example = false /\
  _to_cpu nested_example <> nested_example.
Proof.
  split_and!; [reflexivity|reflexivity|].
  intros Hfix.
  apply (_to_cpu_identity_iff_on_cpu nested_example eq_refl) in Hfix.
  discriminate Hfix.
Defined.

Lemma _to_cpu_twice data : _to_cpu (_to_cpu data) = _to_cpu data.
Proof.
  apply _to_cpu_fixed; [apply _to_cpu_host|apply _to_cpu_well_formed].
Qed.

(** ** [evaluate] once more *)

(** X3: [evaluate] changes nothing of the metric but its accumulator:
    whether it returns or raises, in any process and with any
    [compute_metrics], the class, the dataset metadata, the collection
    device and the prefix are afterwards what they were. *)
Theorem evaluate_frame D cm size self w r s' :
  evaluate D cm size (self, w) = (r, s') ->
  s'.1.(__class__) = self.(__class__) /\
  dataset_meta s'.1 = dataset_meta self /\
  s'.1.(collect_device) = self.(collect_device) /\
  s'.1.(prefix) = self.(prefix) /\
  (s'.1.(results) = self.(results) \/ s'.1.(results) = []).
Proof.
  rewrite evaluate_run. intros H.
  repeat case_match; simplify_eq; simpl; auto 10.
Qed.

Lemma evaluate_frame_witness :
  dataset_meta
    (evaluate single_process first_result 1
       (set_dataset_meta [(KStr "classes", VInt 2)] gpu_metric, empty_world)).2.1
  = Some [(KStr "classes", VInt 2)].
Proof.
  destruct (evaluate single_process first_result 1
              (set_dataset_meta [(KStr "classes", VInt 2)] gpu_metric, empty_world))
    as [r s'] eqn:Hrun.
  destruct (evaluate_frame _ _ _ _ _ _ _ Hrun) as (_ & Hmeta & _).
  simpl. rewrite Hmeta. reflexivity.
Defined.

(** X4: a process that is not the designated one never calls
    [compute_metrics]: its [evaluate] is the same whatever
    [compute_metrics] is, and a [compute_metrics] that would raise does not
    make it raise. *)
Theorem evaluate_not_designated D cm cm' size self w :
  is_main_process D = false ->
  evaluate D cm size (self, w) = evaluate D cm' size (self, w).
Proof.
  intros Hmain. rewrite !evaluate_run, Hmain. reflexivity.
Qed.

Lemma evaluate_not_designated_witness :
  evaluate second_worker int_keyed 2 (gpu_metric, empty_world)
  = evaluate second_worker first_result 2 (gpu_metric, empty_world).
Proof.
  apply (evaluate_not_designated second_worker int_keyed first_result 2
           gpu_metric empty_world).
  reflexivity.
Defined.

Lemma add_prefix_not_str p d acc :
  Exists (fun k => is_str k = false) (PyDict.keys d) ->
  add_prefix (Some p) d acc
  = Raise (TypeError "sequence item 1: expected str instance, int found").
Proof.
  unfold PyDict.keys. revert acc.
  induction d as [|[k v] d IH]; intros acc Hex; csimpl in *.
  - by apply Exists_nil in Hex.
  - destruct k as [s|n]; simpl; [|done].
    apply Exists_cons in Hex as [Hk|Hex]; [done|]. by apply IH.
Qed.

(** X5: under a prefix that is a non-empty string, a mapping of
    [compute_metrics] with a key that is not a string makes [evaluate]
    raise [TypeError] from the join of prefix and key; the accumulator is
    not cleared. *)
Theorem evaluate_key_not_str D cm size self w d w' :
  SingleWorker D ->
  valid_device self.(collect_device) = true ->
  cm self (_to_cpu (VList (slice_to self.(results) size))) (after_warning self w)
    = (Return d, w') ->
  truthy self.(prefix) = true ->
  Exists (fun k => is_str k = false) (PyDict.keys d) ->
  evaluate D cm size (self, w)
  = (Raise (TypeError "sequence item 1: expected str instance, int found"),
     (self, w')).
Proof.
  intros HD Hdev Hcm Hp Hex.
  rewrite evaluate_single_worker_run by done.
  unfold reduce. rewrite Hcm, Hp.
  destruct (prefix self) as [p|]; [|done].
  by rewrite add_prefix_not_str.
Qed.

Lemma evaluate_key_not_str_witness :
  evaluate single_process int_keyed 2 (gpu_metric, empty_world)
  = (Raise (TypeError "sequence item 1: expected str instance, int found"),
     (gpu_metric, empty_world)).
Proof.
  apply (evaluate_key_not_str single_process int_keyed 2 gpu_metric empty_world
           [(KInt 1, VInt 0)] empty_world).
  - auto with metric.
  - reflexivity.
  - reflexivity.
  - reflexivity.
  - left. reflexivity.
Defined.

(** X6: when the prefix is [None] or the empty string, [evaluate] returns
    the mapping of [compute_metrics] as it is, whatever its keys are: a key
    that is not a string raises nothing. *)
Theorem evaluate_no_prefix D cm size self w d w' :
  SingleWorker D ->
  valid_device self.(collect_device) = true ->
  cm self (_to_cpu (VList (slice_to self.(results) size))) (after_warning self w)
    = (Return d, w') ->
  truthy self.(prefix) = false ->
  evaluate D cm size (self, w) = (Return (VDict d), (clear_results self, w')).
Proof.
  intros HD Hdev Hcm Hp.
  rewrite evaluate_single_worker_run by done.
  unfold reduce. by rewrite Hcm, Hp.
Qed.

Lemma evaluate_no_prefix_witness :
  evaluate single_process int_keyed 1 (plain_metric, empty_world)
  = (Return (VDict [(KInt 1, VInt 0)]), (clear_results plain_metric, empty_world)).
Proof.
  apply (evaluate_no_prefix single_process int_keyed 1 plain_metric empty_world
           [(KInt 1, VInt 0)] empty_world).
  - auto with metric.
  - reflexivity.
  - reflexivity.
  - reflexivity.
Defined.

Lemma getitem_rename_keys p (d : PyDict.t value) k :
  PyDict.getitem (rename_keys p d) (prefix_key p k) = PyDict.getitem d k.
Proof.
  unfold rename_keys. induction d as [|[k' v] d IH]; csimpl; [done|].
  destruct (decide (k' = k)) as [->|Hne].
  - by rewrite decide_True.
  - rewrite decide_False; [done|]. intros Heq. by apply (inj (prefix_key p)) in Heq.
Qed.

(** X7: under a prefix that is a non-empty string, every metric of
    [compute_metrics] is found in the mapping of [evaluate] under
    [prefix + "/" + name] with the value it had, the mapping has as many
    entries as [compute_metrics] gave, and each of its keys starts with
    [prefix + "/"]. *)
Theorem evaluate_lookup_prefixed D cm size self w d w' p :
  SingleWorker D ->
  valid_device self.(collect_device) = true ->
  cm self (_to_cpu (VList (slice_to self.(results) size))) (after_warning self w)
    = (Return d, w') ->
  PyDict.wf d ->
  Forall (fun k => is_str k = true) (PyDict.keys d) ->
  self.(prefix) = Some p ->
  p <> "" ->
  exists d',
    evaluate D cm size (self, w) = (Return (VDict d'), (clear_results self, w')) /\
    length d' = length d /\
    (forall name, PyDict.getitem d' (KStr (p +:+ "/" +:+ name))
                  = PyDict.getitem d (KStr name)) /\
    Forall (fun k => exists name, k = KStr (p +:+ "/" +:+ name)) (PyDict.keys d').
Proof.
  intros HD Hdev Hcm Hwf Hstr Hp Hne.
  exists (rename_keys p d). split_and!.
  - rewrite evaluate_single_worker_run by done.
    rewrite (reduce_reported _ _ _ _ d w') by done.
    rewrite Hp. simpl. by destruct (String.eqb_spec p "").
  - unfold rename_keys. apply length_fmap.
  - intros name. apply (getitem_rename_keys p d (KStr name)).
  - unfold rename_keys, PyDict.keys in *. rewrite <- list_fmap_compose.
    apply Forall_fmap. apply Forall_fmap in Hstr.
    eapply Forall_impl; [exact Hstr|]. intros [[name|n] v] Hk; simpl in *; [|done].
    by exists name.
Qed.

Lemma evaluate_lookup_prefixed_witness :
  exists d',
    evaluate single_process first_result 1 (gpu_metric, empty_world)
      = (Return (VDict d'), (clear_results gpu_metric, empty_world)) /\
    PyDict.getitem d' (KStr "acc/first") = Some (VTensor (mkTensor cpu [1; 2])).
Proof.
  destruct (evaluate_lookup_prefixed single_process first_result 1 gpu_metric
              empty_world [(KStr "first", VTensor (mkTensor cpu [1; 2]))]
              empty_world "acc")
    as (d' & Hrun & _ & Hget & _).
  - auto with metric.
  - reflexivity.
  - reflexivity.
  - unfold PyDict.wf. simpl. apply NoDup_singleton.
  - simpl. repeat constructor.
  - reflexivity.
  - discriminate.
  - exists d'. split; [exact Hrun|]. exact (Hget "first").
Defined.

(** ** [DumpResults.process] *)

Lemma extend_results_nil self : extend_results [] self = self.
Proof.
  destruct self as [[cls meta dev R pre] path]. unfold extend_results. simpl.
  by rewrite app_nil_r.
Qed.

Lemma extend_results_app items items' self :
  extend_results items' (extend_results items self) = extend_results (items ++ items') self.
Proof. unfold extend_results. simpl. by rewrite app_assoc. Qed.

(** X8: [process] does not raise on a list of predictions and does not look
    at [data_batch]; it puts the relocated predictions after what the
    accumulator held, in their order, every one of them in host memory, and
    leaves the output path, the prefix, the metadata and the collection
    device alone. *)
Theorem DumpResults_process_appends data_batch predictions self :
  exists self',
    DumpResults_process data_batch predictions self = (Return (), self') /\
    self'.(base).(results) = self.(base).(results) ++ (_to_cpu <$> predictions) /\
    Forall (fun x => on_cpu x = true) (_to_cpu <$> predictions) /\
    length self'.(base).(results)
      = (length self.(base).(results) + length predictions)%nat /\
    self'.(out_file_path) = self.(out_file_path) /\
    self'.(base).(prefix) = self.(base).(prefix) /\
    dataset_meta self'.(base) = dataset_meta self.(base) /\
    self'.(base).(collect_device) = self.(base).(collect_device).
Proof.
  exists (extend_results (_to_cpu <$> predictions) self).
  split_and!; try reflexivity.
  - apply Forall_fmap, Forall_true. intros x. apply _to_cpu_host.
  - simpl. by rewrite length_app, length_fmap.
Qed.

Lemma process_batches_run batches self :
  process_batches batches self
  = (Return (), extend_results (_to_cpu <$> concat batches.*2) self).
Proof.
  revert self. induction batches as [|[data_batch predictions] batches IH];
    intros self.
  - csimpl. unfold mret, M_ret. by rewrite extend_results_nil.
  - change (process_batches ((data_batch, predictions) :: batches) self)
      with (process_batches batches (extend_results (_to_cpu <$> predictions) self)).
    rewrite IH, extend_results_app. csimpl. by rewrite fmap_app.
Qed.

(** X9: how the predictions are cut into batches does not matter: two
    sequences of [process] calls over the same predictions in the same
    order leave the same accumulator, whatever the [data_batch] arguments
    are. *)
Theorem process_batching_irrelevant batches batches' self :
  concat batches.*2 = concat batches'.*2 ->
  process_batches batches self = process_batches batches' self.
Proof.
  intros Hsame. by rewrite !process_batches_run, Hsame.
Qed.

Lemma process_batching_irrelevant_witness :
  process_batches [(VNone, [prediction 1 9]); (VInt 0, [prediction 2 1])]
    (mkDumpResults bare_metric "out.pkl")
  = process_batches [(VNone, [prediction 1 9; prediction 2 1])]
      (mkDumpResults bare_metric "out.pkl").
Proof.
  apply (process_batching_irrelevant
           [(VNone, [prediction 1 9]); (VInt 0, [prediction 2 1])]
           [(VNone, [prediction 1 9; prediction 2 1])]).
  reflexivity.
Defined.

(** ** [DumpResults] from construction to the file *)

Lemma _to_cpu_slice_relocated (l : list value) size :
  _to_cpu <$> slice_to (_to_cpu <$> l) size = slice_to (_to_cpu <$> l) size.
Proof.
  apply fmap_fixed. apply Forall_forall. intros x Hx.
  assert (x ∈ _to_cpu <$> l) as Hin.
  { unfold slice_to in Hx. case_bool_decide; by eapply subseteq_take. }
  apply list_elem_of_fmap in Hin as (y & -> & _). apply _to_cpu_twice.
Qed.

(** X10: a [DumpResults] built for a recognized path, fed any batches and
    evaluated by a single worker writes to that path the relocated
    predictions of all batches, in order and cut to [size], touches no
    other file, returns the empty mapping and is afterwards the instance
    that construction gave, ready for the next round. *)
Theorem DumpResults_round_trip D path dev w self w1 batches size :
  SingleWorker D ->
  valid_device dev = true ->
  DumpResults__init__ path dev w = (Return self, w1) ->
  exists self' w2,
    process_batches batches self = (Return (), self') /\
    DumpResults_evaluate D size (self', w1) = (Return (VDict []), (self, w2)) /\
    files w2 !! path = Some (VList (slice_to (_to_cpu <$> concat batches.*2) size)) /\
    (forall other, other <> path -> files w2 !! other = files w !! other).
Proof.
  intros HD Hdev Hinit.
  rewrite DumpResults__init___run in Hinit. simpl in Hinit.
  destruct (endswith_any path [".pkl"; ".pickle"]); [|done].
  injection Hinit as <- <-.
  eexists _, _. split; [apply process_batches_run|].
  split.
  { unfold DumpResults_evaluate.
    rewrite evaluate_single_worker_run by done.
    unfold reduce, DumpResults_compute_metrics, dump, print_log, mbind, M_bind,
      mret, M_ret. simpl.
    rewrite _to_cpu_slice_relocated. reflexivity. }
  split.
  - simpl. apply lookup_insert_eq.
  - intros other Hne. simpl. rewrite lookup_insert_ne by done.
    unfold after_warning. by case_bool_decide.
Qed.

Lemma DumpResults_round_trip_witness :
  exists self w1 self' w2,
    DumpResults__init__ "out.pkl" "cpu" empty_world = (Return self, w1) /\
    process_batches [(VNone, [prediction 1 9]); (VNone, [prediction 2 1])] self
      = (Return (), self') /\
    DumpResults_evaluate single_process 2 (self', w1) = (Return (VDict []), (self, w2)) /\
    files w2 !! "out.pkl" = Some (VList [prediction 1 9; prediction 2 1]).
Proof.
  destruct (DumpResults__init__ "out.pkl" "cpu" empty_world) as [[self|e] w1] eqn:Hinit;
    [|vm_compute in Hinit; discriminate Hinit].
  destruct (DumpResults_round_trip single_process "out.pkl" "cpu" empty_world self w1
              [(VNone, [prediction 1 9]); (VNone, [prediction 2 1])] 2)
    as (self' & w2 & Hproc & Hrun & Hfile & _).
  - auto with metric.
  - reflexivity.
  - exact Hinit.
  - exists self, w1, self', w2. split_and!; [reflexivity|exact Hproc|exact Hrun|].
    exact Hfile.
Defined.

(** X11: constructing a [DumpResults] always logs the warning that the
    prefix is not set, and nothing else, also when the path is refused: the
    check of the path comes after [BaseMetric.__init__].  An instance that
    is built has no prefix, an empty accumulator and no metadata, and keeps
    the collection device unchecked. *)
Theorem DumpResults__init___always_warns path dev w :
  (DumpResults__init__ path dev w).2
    = {| logs := logs w ++ [prefix_warning DumpResults_class]; files := files w |} /\
  (forall self w',
     DumpResults__init__ path dev w = (Return self, w') ->
     self.(base).(prefix) = None /\
     self.(base).(results) = [] /\
     dataset_meta self.(base) = None /\
     self.(base).(collect_device) = dev /\
     self.(out_file_path) = path).
Proof.
  rewrite DumpResults__init___run. simpl.
  destruct (endswith_any path [".pkl"; ".pickle"]); split; try done.
  by intros self w' [= <- <-].
Qed.

Lemma BaseMetric__init___run cls dev prefix' w :
  BaseMetric__init__ cls dev prefix' w
  = (Return (constructed cls dev prefix'),
     match py_or prefix' (default_prefix cls) with
     | None => {| logs := logs w ++ [prefix_warning cls]; files := files w |}
     | Some _ => w
     end).
Proof.
  unfold BaseMetric__init__, mbind, M_bind, mret, M_ret, constructed. simpl.
  destruct (py_or prefix' (default_prefix cls)); reflexivity.
Qed.

(** X12: a variant whose [default_prefix] is the empty string gets no
    warning at construction when no prefix (or the empty one) is given,
    since the constructor warns for [None] only; yet [evaluate] reports its
    metrics without a prefix, since it tests the truth of the prefix. *)
Theorem empty_default_prefix_silent cls dev prefix' w :
  default_prefix cls = Some "" ->
  prefix' = None \/ prefix' = Some "" ->
  exists self,
    BaseMetric__init__ cls dev prefix' w = (Return self, w) /\
    self.(prefix) = Some "" /\
    (forall D cm size R w1 d w2,
       SingleWorker D ->
       valid_device dev = true ->
       cm (with_results R self) (_to_cpu (VList (slice_to R size)))
          (after_warning (with_results R self) w1) = (Return d, w2) ->
       evaluate D cm size (with_results R self, w1)
         = (Return (VDict d), (clear_results self, w2))).
Proof.
  intros Hdefault Hgiven.
  assert (py_or prefix' (default_prefix cls) = Some "") as Hp.
  { rewrite Hdefault. by destruct Hgiven as [-> | ->]. }
  exists (constructed cls dev prefix'). split_and!.
  - by rewrite BaseMetric__init___run, Hp.
  - exact Hp.
  - intros D cm size R w1 d w2 HD Hdev Hcm.
    rewrite evaluate_single_worker_run by done.
    unfold reduce. simpl in *. by rewrite Hcm, Hp.
Qed.

Lemma empty_default_prefix_silent_witness :
  exists self,
    BaseMetric__init__ Plain "cpu" None empty_world = (Return self, empty_world) /\
    evaluate single_process first_result 1 (with_results [VInt 1] self, empty_world)
      = (Return (VDict [(KStr "first", VInt 1)]), (clear_results self, empty_world)).
Proof.
  destruct (empty_default_prefix_silent Plain "cpu" None empty_world eq_refl)
    as (self & Hinit & _ & Heval); [by left|].
  exists self. split; [exact Hinit|].
  apply (Heval single_process first_result 1 [VInt 1] empty_world
           [(KStr "first", VInt 1)] empty_world).
  - auto with metric.
  - reflexivity.
  - reflexivity.
Defined.
